(** * URL monitor: check evaluation and alert dispatch

    A shallow embedding of [src/main.py] (class [URLMonitor]): the health
    check of one URL ([check_url]), the e-mail alert ([send_alert]) and one
    monitoring cycle ([run_checks]).

    Python values are a small tagged union, the dictionaries the program
    builds are finite maps from key strings to values, exceptions are a sum
    type, and what the program does to the outside world (HTTP requests,
    log lines, SMTP sessions) is a trace of events.  What the outside world
    answers (the clock, the HTTP response or failure, the mail relay) is an
    input of the functions. *)

From Stdlib Require Import ZArith QArith Qabs Lia String Ascii List DecimalString.
From stdpp Require Import base option list strings gmap fin_maps.

Local Open Scope string_scope.
Local Open Scope Z_scope.
Local Open Scope list_scope.

(** ** Python values *)

(** The values the program stores in its dictionaries.  A [PyFloat] stands
    for a double through a rational: the exact value of the double for the
    elapsed time, and the decimal that the double is nearest to for a
    rounded time.  A rational has one zero, so the negative zero of Python
    is not told apart from zero. *)
Inductive pyval : Type :=
  | PyNone
  | PyBool (b : bool)
  | PyInt (z : Z)
  | PyFloat (q : Q)
  | PyStr (s : string).

(** A [dict] with string keys.  A key can be missing, or present and bound
    to [PyNone]: Python tells the two apart, and so does [dict.get]. *)
Abbreviation dict := (gmap string pyval).

(** [d.get(key, default)]: the default is returned only when the key is
    missing; a key bound to [None] yields [None]. *)
Definition dict_get (d : dict) (key : string) (default : pyval) : pyval :=
  match d !! key with
  | Some v => v
  | None => default
  end.

(** [str(z)] for an [int]. *)
Definition str_int (z : Z) : string := NilZero.string_of_int (Z.to_int z).

(** Truth value of an object of type [Optional[str]], as [if x:] tests it:
    [None] and the empty string are false. *)
Definition truthy_opt_str (x : option string) : option string :=
  match x with
  | Some EmptyString => None
  | Some s => Some s
  | None => None
  end.

(** Truth value of a stored value, as [if result["success"]:] tests it. *)
Definition truthy (v : pyval) : bool :=
  match v with
  | PyNone => false
  | PyBool b => b
  | PyInt z => negb (z =? 0)
  | PyFloat q => negb (Qeq_bool q 0)
  | PyStr s => negb (String.eqb s "")
  end.

(** ** Substring search: [needle in haystack] on [str] *)

Fixpoint starts_with (needle haystack : string) : bool :=
  match needle, haystack with
  | EmptyString, _ => true
  | String a n', String b h' => Ascii.eqb a b && starts_with n' h'
  | String _ _, EmptyString => false
  end.

Fixpoint str_in (needle haystack : string) : bool :=
  starts_with needle haystack
  || match haystack with
     | EmptyString => false
     | String _ h' => str_in needle h'
     end.

(** ** Rounding: [round(x, 2)] *)

(** Nearest integer to [q], ties to even. *)
Definition round_half_even (q : Q) : Z :=
  let n := Qnum q in
  let d := Zpos (Qden q) in
  let f := n / d in
  let r2 := 2 * (n mod d) in
  if r2 <? d then f
  else if d <? r2 then f + 1
  else if Z.even f then f else f + 1.

(** [round(x, 2)] on the exact value of [x]: the nearest multiple of 1/100,
    ties to even.  Python returns the double nearest to this decimal, with
    the sign of [x]: the model keeps the decimal, and for [x] in
    [[-0.005, 0)], where Python returns [-0.0], it has [0]. *)
Definition round2 (x : Q) : Q := round_half_even (x * 100) # 100.

(** [x > cap] for a float [x] and an int [cap]; Python compares the two
    exactly. *)
Definition float_gt_int (x : Q) (cap : Z) : bool :=
  negb (Qle_bool x (inject_Z cap)).

(** Exact decimal expansion of a rational with a finite one (at most
    [fuel] fractional digits are printed, at least one). *)
Fixpoint frac_digits (fuel : nat) (r d : Z) : string :=
  match fuel with
  | O => ""
  | S fuel' =>
      let r10 := 10 * r in
      str_int (r10 / d) +:+
      (if r10 mod d =? 0 then "" else frac_digits fuel' (r10 mod d) d)
  end.

Definition decimal_repr (q : Q) : string :=
  let n := Z.abs (Qnum q) in
  let d := Zpos (Qden q) in
  (if Qnum q <? 0 then "-" else "") +:+
  str_int (n / d) +:+ "." +:+ frac_digits 20 (n mod d) d.

(** ** Configuration *)

(** One entry of [CONFIG["urls"]]. *)
Record url_config : Type := {
  url : string;
  expected_status : Z;
  search_string : option string
}.

(** [CONFIG["smtp"]]. *)
Record smtp_config : Type := {
  server : string;
  port : Z;
  username : string;
  password : string;
  from : string;
  to : list string;
  subject_prefix : string
}.

(** [CONFIG["monitoring"]]. *)
Record monitoring_config : Type := {
  timeout_seconds : Z;
  check_interval_minutes : Z;
  max_response_time_ms : Z
}.

Record config : Type := {
  urls : list url_config;
  smtp : smtp_config;
  monitoring : monitoring_config
}.

(** The [CONFIG] of the source. *)
Definition CONFIG : config := {|
  urls := [
    {| url := "https://www.google.com"; expected_status := 200;
       search_string := None |};
    {| url := "https://www.example.com"; expected_status := 200;
       search_string := Some "Example Domain" |} ];
  smtp := {|
    server := "smtp.gmail.com";
    port := 587;
    username := "your_email@gmail.com";
    password := "your_app_specific_password";
    from := "monitoring@yourdomain.com";
    to := ["admin@yourdomain.com"; "backup@yourdomain.com"];
    subject_prefix := "[URL Monitor]" |};
  monitoring := {|
    timeout_seconds := 10;
    check_interval_minutes := 5;
    max_response_time_ms := 2000 |}
|}.

(** ** The outcome of the HTTP request *)

Record response : Type := {
  status_code : Z;
  text : string
}.

(** What [self.session.get(...)] does: it returns a response, and the
    program then measures [response_time = (time.time() - start_time) * 1000],
    or it raises an exception [e], of which the program keeps [str(e)]. *)
Inductive probe : Type :=
  | Responded (response_time : Q) (r : response)
  | Raised (e : string).

(** ** Exceptions and events *)

(** A computation returns a value or raises an [Exception]; [e] is
    [str(e)] of the exception. *)
Inductive outcome (A : Type) : Type :=
  | Ok (a : A)
  | Raise (e : string).
Arguments Ok {A} a.
Arguments Raise {A} e.

Inductive level : Type := INFO | ERROR.

(** The message handed to [server.send_message]. *)
Record email : Type := {
  msg_from : string;
  msg_to : string;
  msg_subject : string;
  msg_body : string
}.

(** What the program does to the outside world. *)
Inductive event : Type :=
  | HttpGet (target : string)
  | Log (lv : level) (line : string)
  | SendAlert (check_result : dict)
  | SmtpSendMessage (msg : email).

(** Effectful code: the events it produced, and how it ended. *)
Definition M (A : Type) : Type := list event * outcome A.

Definition ret {A} (a : A) : M A := ([], Ok a).

Definition bind {A B} (m : M A) (k : A -> M B) : M B :=
  match m with
  | (tr, Ok a) => let '(tr', r) := k a in (tr ++ tr', r)
  | (tr, Raise e) => (tr, Raise e)
  end.

Definition raise {A} (e : string) : M A := ([], Raise e).

Definition emit (ev : event) : M unit := ([ev], Ok tt).

(** [try: body  except Exception as e: handler(str(e))]. *)
Definition try_except {A} (body : M A) (handler : string -> M A) : M A :=
  match body with
  | (tr, Ok a) => (tr, Ok a)
  | (tr, Raise e) => let '(tr', r) := handler e in (tr ++ tr', r)
  end.

(** [with cm as x: body], from the point where the context manager has been
    entered: [exit] is its [__exit__], run whether or not [body] raised; an
    exception of [exit] replaces the outcome of [body]. *)
Definition with_exit {A} (body : M A) (exit : M unit) : M A :=
  let '(tr, r) := body in
  match exit with
  | (tr', Ok _) => (tr ++ tr', r)
  | (tr', Raise e) => (tr ++ tr', Raise e)
  end.

Notation "'let*' x ':=' m 'in' k" := (bind m (fun x => k))
  (at level 10, x name, m at level 100, k at level 200, only parsing).
Notation "'run' m 'in' k" := (bind m (fun _ => k))
  (at level 10, m at level 100, k at level 200, only parsing).

Definition trace {A} (m : M A) : list event := m.1.
Definition result_of {A} (m : M A) : outcome A := m.2.

(** [d[key]]: raises [KeyError(key)], whose [str] is the quoted key. *)
Definition getitem (d : dict) (key : string) : M pyval :=
  match d !! key with
  | Some v => ret v
  | None => raise ("'" +:+ key +:+ "'")
  end.

Definition logging (lv : level) (line : string) : M unit := emit (Log lv line).

(** ** [check_url] *)

Section Monitor.

(** [repr] of a [float], as an f-string interpolates it.  The shortest
    round-trip formatting of doubles is not modelled: every statement below
    holds for any formatting function.  For the rational of a rounded time
    it stands for the [repr] of the double nearest to it; statements that
    fix the text printed for a rounded time assume an elapsed time that is
    not negative, where no negative zero arises. *)
Variable float_repr : Q -> string.

(** [str(v)], which is what [f"{v}"] interpolates. *)
Definition py_str (v : pyval) : string :=
  match v with
  | PyNone => "None"
  | PyBool true => "True"
  | PyBool false => "False"
  | PyInt z => str_int z
  | PyFloat q => float_repr q
  | PyStr s => s
  end.

(** An assignment [result[key] = value]. *)
Definition store : Type := string * pyval.

Definition apply_store (d : dict) (s : store) : dict := <[s.1 := s.2]> d.

(** The dictionary [check_url] starts from (lines 69-77); [timestamp] is
    [datetime.utcnow().isoformat()]. *)
Definition initial_result (uc : url_config) (timestamp : string) : dict :=
  <["content_verified" := PyNone]>
  (<["error" := PyNone]>
  (<["response_time_ms" := PyNone]>
  (<["status_code" := PyNone]>
  (<["success" := PyBool false]>
  (<["timestamp" := PyStr timestamp]>
  (<["url" := PyStr (url uc)]> ∅)))))).

(** The response-time check and the final [result["success"] = True]
    (lines 103-109).  The comparison and the message use the local
    [response_time], not the rounded [result["response_time_ms"]]. *)
Definition check_response_time (cfg : config) (response_time : Q) : list store :=
  if float_gt_int response_time (max_response_time_ms (monitoring cfg))
  then [("error", PyStr ("Slow response: " +:+ float_repr response_time +:+ "ms"))]
  else [("success", PyBool true)].

(** The content check (lines 95-101) followed by the rest. *)
Definition check_content (cfg : config) (uc : url_config)
    (response_time : Q) (r : response) : list store :=
  match truthy_opt_str (search_string uc) with
  | Some s =>
      let content_match := str_in s (text r) in
      ("content_verified", PyBool content_match) ::
      (if negb content_match
       then [("error", PyStr "Search string not found in response")]
       else check_response_time cfg response_time)
  | None => check_response_time cfg response_time
  end.

(** The assignments to [result] that the [try] statement of [check_url]
    executes (lines 79-113), in order. *)
Definition check_url_stores (cfg : config) (uc : url_config) (p : probe) : list store :=
  match p with
  | Responded response_time r =>
      ("response_time_ms", PyFloat (round2 response_time)) ::
      ("status_code", PyInt (status_code r)) ::
      (if negb (status_code r =? expected_status uc)
       then [("error", PyStr ("Unexpected status: " +:+ str_int (status_code r)))]
       else check_content cfg uc response_time r)
  | Raised e => [("error", PyStr e)]
  end.

(** [URLMonitor.check_url]: the result dictionary it returns. *)
Definition check_url (cfg : config) (uc : url_config)
    (timestamp : string) (p : probe) : dict :=
  fold_left apply_store (check_url_stores cfg uc p) (initial_result uc timestamp).

(** The values [check_url] assigned to [result["error"]], in order. *)
Definition errors_recorded (cfg : config) (uc : url_config) (p : probe) : list pyval :=
  map snd (filter (fun s : store => s.1 = "error") (check_url_stores cfg uc p)).

(** [check_url] with the request it sends. *)
Definition check_url_io (cfg : config) (uc : url_config)
    (timestamp : string) (p : probe) : M dict :=
  run emit (HttpGet (url uc)) in
  ret (check_url cfg uc timestamp p).

(** ** [send_alert] *)

(** The steps of the SMTP session of [send_alert]: the constructor
    [smtplib.SMTP(server, port)], [starttls], [login], [send_message], and
    the [QUIT] of the context manager's [__exit__]. *)
Inductive smtp_step : Type := Connect | StartTLS | Login | SendMessage | Quit.

(** The mail relay: for each step, [None] when it succeeds and the message
    of the exception when it raises. *)
Definition relay : Type := smtp_step -> option string.

Definition smtp_call (srv : relay) (s : smtp_step) : M unit :=
  match srv s with
  | Some e => raise e
  | None => ret tt
  end.

(** One diagnostic line value: [check_result.get(key, 'N/A')] interpolated. *)
Definition diagnostic (check_result : dict) (key : string) : string :=
  py_str (dict_get check_result key (PyStr "N/A")).

(** The f-string of lines 127-144. *)
Definition alert_body (url_v time_v error_v : pyval) (check_result : dict) : string :=
  "
            URL Monitoring Alert
            -------------------
            
            URL: " +:+ py_str url_v +:+ "
            Time: " +:+ py_str time_v +:+ "
            Error: " +:+ py_str error_v +:+ "
            
            Diagnostics:
            - Status Code: " +:+ diagnostic check_result "status_code" +:+ "
            - Response Time: " +:+ diagnostic check_result "response_time_ms" +:+ " ms
            - Content Verified: " +:+ diagnostic check_result "content_verified" +:+ "
            
            Recommended Actions:
            1. Verify server connectivity
            2. Check application logs
            3. Validate recent deployments
            ".

(** Lines 118-145: the message. *)
Definition build_message (cfg : config) (check_result : dict) : M email :=
  let smtp_config := smtp cfg in
  let* subject_url := getitem check_result "url" in
  let* url_v := getitem check_result "url" in
  let* time_v := getitem check_result "timestamp" in
  let* error_v := getitem check_result "error" in
  ret {| msg_from := from smtp_config;
         msg_to := String.concat ", " (to smtp_config);
         msg_subject := subject_prefix smtp_config +:+ " Failure: " +:+ py_str subject_url;
         msg_body := alert_body url_v time_v error_v check_result |}.

(** Lines 148-151: the SMTP session. *)
Definition smtp_session (srv : relay) (msg : email) : M unit :=
  run smtp_call srv Connect in
  with_exit
    (run smtp_call srv StartTLS in
     run smtp_call srv Login in
     run emit (SmtpSendMessage msg) in
     smtp_call srv SendMessage)
    (smtp_call srv Quit).

(** [URLMonitor.send_alert]. *)
Definition send_alert (cfg : config) (check_result : dict) (srv : relay) : M bool :=
  run emit (SendAlert check_result) in
  try_except
    (let* msg := build_message cfg check_result in
     run smtp_session srv msg in
     let* url_v := getitem check_result "url" in
     run logging INFO ("Alert sent for " +:+ py_str url_v) in
     ret true)
    (fun e =>
     run logging ERROR ("Failed to send alert: " +:+ e) in
     ret false).

(** ** [run_checks] *)

(** What the outside world answers while one target is handled: the clock,
    the HTTP request, and the mail relay (consulted only if an alert is
    sent). *)
Record observation : Type := {
  obs_timestamp : string;
  obs_probe : probe;
  obs_relay : relay
}.

(** The body of the [for] loop (lines 165-171). *)
Definition run_check (cfg : config) (uc : url_config) (o : observation) : M unit :=
  let* result := check_url_io cfg uc (obs_timestamp o) (obs_probe o) in
  let* success := getitem result "success" in
  if truthy success then
    let* rt := getitem result "response_time_ms" in
    logging INFO ("✓ " +:+ url uc +:+ " - " +:+ py_str rt +:+ "ms")
  else
    let* err := getitem result "error" in
    run logging ERROR ("✗ " +:+ url uc +:+ " - " +:+ py_str err) in
    let* _ := send_alert cfg result (obs_relay o) in
    ret tt.

(** The [for] loop over the targets; [env i] is what the world answers
    during iteration [i]. *)
Fixpoint run_checks_loop (cfg : config) (env : nat -> observation)
    (targets : list url_config) : M unit :=
  match targets with
  | [] => ret tt
  | uc :: rest =>
      run run_check cfg uc (env O) in
      run_checks_loop cfg (fun i => env (S i)) rest
  end.

(** [URLMonitor.run_checks]. *)
Definition run_checks (cfg : config) (env : nat -> observation) : M unit :=
  run logging INFO "Starting URL monitoring checks..." in
  run run_checks_loop cfg env (urls cfg) in
  logging INFO "Completed all checks".

End Monitor.


(** ** Vocabulary of the statements *)

(** [needle] occurs in [haystack] as a contiguous, case-sensitive run of
    characters. *)
Definition occurs_in (needle haystack : string) : Prop :=
  exists pre post, haystack = pre +:+ needle +:+ post.

(** The three sub-checks of a response, in their order of precedence. *)
Inductive sub_check : Type := StatusCheck | ContentCheck | LatencyCheck.

Definition precedence : list sub_check := [StatusCheck; ContentCheck; LatencyCheck].

(** Whether a sub-check, taken alone, fails on a response. *)
Definition fails (cfg : config) (uc : url_config) (response_time : Q)
    (r : response) (c : sub_check) : bool :=
  match c with
  | StatusCheck => negb (status_code r =? expected_status uc)
  | ContentCheck =>
      match truthy_opt_str (search_string uc) with
      | Some s => negb (str_in s (text r))
      | None => false
      end
  | LatencyCheck => float_gt_int response_time (max_response_time_ms (monitoring cfg))
  end.

(** The error message of a failed sub-check. *)
Definition failure_message (float_repr : Q -> string) (response_time : Q)
    (r : response) (c : sub_check) : string :=
  match c with
  | StatusCheck => "Unexpected status: " +:+ str_int (status_code r)
  | ContentCheck => "Search string not found in response"
  | LatencyCheck => "Slow response: " +:+ float_repr response_time +:+ "ms"
  end.

(** The first sub-check that fails, in precedence order, if any. *)
Definition first_failure (cfg : config) (uc : url_config) (response_time : Q)
    (r : response) : option sub_check :=
  head (filter (fun c => fails cfg uc response_time r c = true) precedence).

(** The value of [result["error"]] for an optional message. *)
Definition error_value (m : option string) : pyval :=
  match m with
  | Some s => PyStr s
  | None => PyNone
  end.

(** The content sub-check passes: a configured search string occurs in the
    body. *)
Definition content_found (uc : url_config) (r : response) : Prop :=
  forall s, search_string uc = Some s -> occurs_in s (text r).

(** The elapsed time of a response is not negative (the clock did not go
    backwards during the request). *)
Definition elapsed_nonneg (p : probe) : Prop :=
  match p with
  | Responded response_time _ => (0 <= response_time)%Q
  | Raised _ => True
  end.

(** The target with its search string removed. *)
Definition without_search_string (uc : url_config) : url_config :=
  {| url := url uc; expected_status := expected_status uc; search_string := None |}.

(** The alerts dispatched in a trace: the results [send_alert] was called
    with, in order. *)
Fixpoint alerts_of (tr : list event) : list dict :=
  match tr with
  | [] => []
  | SendAlert r :: tr' => r :: alerts_of tr'
  | _ :: tr' => alerts_of tr'
  end.

(** The URLs requested in a trace, in order. *)
Fixpoint requests_of (tr : list event) : list string :=
  match tr with
  | [] => []
  | HttpGet u :: tr' => u :: requests_of tr'
  | _ :: tr' => requests_of tr'
  end.

(** Events of the mail session and the log: neither a request nor an
    alert dispatch. *)
Definition internal (ev : event) : Prop :=
  match ev with
  | Log _ _ | SmtpSendMessage _ => True
  | HttpGet _ | SendAlert _ => False
  end.

(** Code that only logs and talks to the relay. *)
Definition quiet {A} (m : M A) : Prop := Forall internal (trace m).

(** The log lines of a trace, in order. *)
Fixpoint logs_of (tr : list event) : list (level * string) :=
  match tr with
  | [] => []
  | Log lv line :: tr' => (lv, line) :: logs_of tr'
  | _ :: tr' => logs_of tr'
  end.

(** [result["success"]] as [run_checks] tests it. *)
Definition succeeded (r : dict) : bool :=
  match r !! "success" with
  | Some v => truthy v
  | None => false
  end.

(** The results of one cycle: [check_url] of each target, in order, with
    what the world answered during its iteration. *)
Fixpoint cycle_results (float_repr : Q -> string) (cfg : config)
    (env : nat -> observation) (targets : list url_config) : list dict :=
  match targets with
  | [] => []
  | uc :: rest =>
      check_url float_repr cfg uc (obs_timestamp (env O)) (obs_probe (env O))
      :: cycle_results float_repr cfg (fun i => env (S i)) rest
  end.

(** The messages handed to the relay in a trace, in order. *)
Fixpoint mails_of (tr : list event) : list email :=
  match tr with
  | [] => []
  | SmtpSendMessage msg :: tr' => msg :: mails_of tr'
  | _ :: tr' => mails_of tr'
  end.

(** The keys [send_alert] reads with [check_result[key]], in the order in
    which it first reads them (lines 124-133). *)
Definition required_keys : list string := ["url"; "timestamp"; "error"].

Definition is_missing (d : dict) (key : string) : bool :=
  match d !! key with
  | Some _ => false
  | None => true
  end.

(** The first required key that a dictionary lacks. *)
Definition first_missing (d : dict) : option string :=
  head (filter (fun key => is_missing d key = true) required_keys).

(** Every step of the SMTP session succeeds. *)
Definition relay_accepts (srv : relay) : Prop := forall s, srv s = None.

(** The keys of a result of [check_url] (lines 69-77). *)
Definition result_keys : gset string :=
  {[ "url"; "timestamp"; "success"; "status_code"; "response_time_ms";
     "error"; "content_verified" ]}.

(** ** Sample inputs *)

(** The second target of [CONFIG]. *)
Definition example_com : url_config :=
  {| url := "https://www.example.com"; expected_status := 200;
     search_string := Some "Example Domain" |}.

(** The first target of [CONFIG]: no search string. *)
Definition google_com : url_config :=
  {| url := "https://www.google.com"; expected_status := 200;
     search_string := None |}.

(** A target whose search string is the empty string. *)
Definition empty_search : url_config :=
  {| url := "https://www.example.com"; expected_status := 200;
     search_string := Some "" |}.

Definition noon : string := "2024-01-01T12:00:00".

Definition page : response :=
  {| status_code := 200; text := "<h1>Example Domain</h1>" |}.

Definition other_page : response :=
  {| status_code := 200; text := "<h1>Welcome</h1>" |}.

Definition not_found : response :=
  {| status_code := 404; text := "Not Found" |}.

(** A result without its timestamp. *)
Definition no_timestamp : dict :=
  <["error" := PyStr "Connection refused"]>
  (<["url" := PyStr "https://www.example.com"]> ∅).

(** A dictionary with the required keys and no diagnostic key. *)
Definition bare_result : dict :=
  <["timestamp" := PyStr "2024-01-01T12:00:00"]> no_timestamp.

(** A relay on which every step succeeds. *)
Definition relay_ok : relay := fun _ => None.

(** A relay that rejects the credentials. *)
Definition relay_bad_login : relay := fun s =>
  match s with
  | Login => Some "(535, b'5.7.8 Username and Password not accepted')"
  | _ => None
  end.

(** A cycle over [CONFIG]: the first target refuses the connection and the
    relay rejects the login; the second target answers. *)
Definition bad_day (i : nat) : observation :=
  {| obs_timestamp := noon;
     obs_probe := match i with
                  | O => Raised "Connection refused"
                  | _ => Responded (50126 # 1000) page
                  end;
     obs_relay := relay_bad_login |}.

(** A cycle over [CONFIG] in which both targets answer in time. *)
Definition good_day (i : nat) : observation :=
  {| obs_timestamp := noon;
     obs_probe := Responded (50126 # 1000) page;
     obs_relay := relay_bad_login |}.

(** A cycle over [CONFIG] in which no target answers and the relay works. *)
Definition outage (i : nat) : observation :=
  {| obs_timestamp := noon;
     obs_probe := Raised "Connection refused";
     obs_relay := relay_ok |}.

(** ** Properties of the helpers *)

Lemma starts_with_spec (needle haystack : string) :
  starts_with needle haystack = true <-> exists post, haystack = needle +:+ post.
Proof.
  revert haystack. induction needle as [|a n IH]; intros [|b h]; simpl.
  - split; [intros _; by exists "" | done].
  - split; [intros _; by exists (String b h) | done].
  - split; [done | intros [post H]; discriminate].
  - rewrite andb_true_iff, Ascii.eqb_eq, IH. split.
    + intros [-> [post ->]]. by exists post.
    + intros [post H]. injection H as -> ->. eauto.
Qed.

Lemma str_in_spec (needle haystack : string) :
  str_in needle haystack = true <-> occurs_in needle haystack.
Proof.
  unfold occurs_in. induction haystack as [|b h IH]; simpl.
  - rewrite orb_false_r, starts_with_spec. split.
    + intros [post H]. by exists "", post.
    + intros [[|? pre] [post H]]; [by exists post | discriminate].
  - rewrite orb_true_iff, starts_with_spec, IH. split.
    + intros [[post H] | (pre & post & ->)].
      * by exists "", post.
      * by exists (String b pre), post.
    + intros [[|c pre] [post H]].
      * left. by exists post.
      * right. injection H as -> ->. eauto.
Qed.

Lemma str_in_empty (haystack : string) : str_in "" haystack = true.
Proof. by destruct haystack. Qed.

Lemma truthy_opt_str_Some (x : option string) (s : string) :
  truthy_opt_str x = Some s <-> x = Some s /\ s <> "".
Proof.
  destruct x as [[|a x]|]; simpl; split; try done.
  - by intros [[= <-] ?].
  - intros [= <-]. done.
  - by intros [[= <-] _].
  - by intros [? _].
Qed.

Lemma float_gt_int_true (x : Q) (cap : Z) :
  float_gt_int x cap = true <-> (inject_Z cap < x)%Q.
Proof.
  unfold float_gt_int. rewrite negb_true_iff.
  split.
  - intros H. apply Qnot_le_lt. intros Hle.
    apply Qle_bool_iff in Hle. congruence.
  - intros H. destruct (Qle_bool x (inject_Z cap)) eqn:E; [|done].
    apply Qle_bool_iff in E. by apply Qlt_not_le in H.
Qed.

Lemma float_gt_int_false (x : Q) (cap : Z) :
  float_gt_int x cap = false <-> (x <= inject_Z cap)%Q.
Proof.
  unfold float_gt_int. rewrite negb_false_iff. apply Qle_bool_iff.
Qed.

(** [round_half_even] returns an integer at distance at most 1/2. *)
Lemma round_half_even_nearest (q : Q) :
  Z.abs (2 * (round_half_even q * Zpos (Qden q) - Qnum q)) <= Zpos (Qden q).
Proof.
  unfold round_half_even. destruct q as [n d]. cbn [Qnum Qden].
  pose proof (Z.div_mod n (Zpos d) ltac:(lia)) as Hdm.
  pose proof (Z.mod_pos_bound n (Zpos d) ltac:(lia)) as Hb.
  set (f := n / Zpos d) in *. set (r := n mod Zpos d) in *.
  clearbody f r.
  destruct (Z.ltb_spec (2 * r) (Zpos d)); [lia|].
  destruct (Z.ltb_spec (Zpos d) (2 * r)); [lia|].
  destruct (Z.even f); lia.
Qed.

(** ** [check_url]: the result of each path *)

(** The request raised: only [error] is assigned. *)
Lemma check_url_raised fr cfg uc ts e :
  check_url fr cfg uc ts (Raised e)
  = <["error" := PyStr e]> (initial_result uc ts).
Proof. reflexivity. Qed.

(** The status differs: [error] is assigned after the two measurements. *)
Lemma check_url_stores_status fr cfg uc rt r :
  status_code r <> expected_status uc ->
  check_url_stores fr cfg uc (Responded rt r)
  = [("response_time_ms", PyFloat (round2 rt));
     ("status_code", PyInt (status_code r));
     ("error", PyStr ("Unexpected status: " +:+ str_int (status_code r)))].
Proof.
  intros H. apply Z.eqb_neq in H. unfold check_url_stores. by rewrite H.
Qed.

(** The status matches and no content check applies. *)
Lemma check_url_stores_no_search fr cfg uc rt r :
  status_code r = expected_status uc ->
  truthy_opt_str (search_string uc) = None ->
  check_url_stores fr cfg uc (Responded rt r)
  = ("response_time_ms", PyFloat (round2 rt)) ::
    ("status_code", PyInt (status_code r)) ::
    check_response_time fr cfg rt.
Proof.
  intros H Hs. apply Z.eqb_eq in H.
  unfold check_url_stores, check_content. by rewrite H, Hs.
Qed.

(** The status matches and the content check applies. *)
Lemma check_url_stores_search fr cfg uc rt r s :
  status_code r = expected_status uc ->
  truthy_opt_str (search_string uc) = Some s ->
  check_url_stores fr cfg uc (Responded rt r)
  = ("response_time_ms", PyFloat (round2 rt)) ::
    ("status_code", PyInt (status_code r)) ::
    ("content_verified", PyBool (str_in s (text r))) ::
    (if str_in s (text r)
     then check_response_time fr cfg rt
     else [("error", PyStr "Search string not found in response")]).
Proof.
  intros H Hs. apply Z.eqb_eq in H.
  unfold check_url_stores, check_content. rewrite H, Hs. simpl.
  by destruct (str_in s (text r)).
Qed.

(** C2: a response whose status differs from the expected one yields the
    error "Unexpected status: <status>" and [success = False], whatever the
    body and the response time are; evaluation stops there, so the content
    check leaves no mark and this is the only error assigned. *)
Theorem C2_unexpected_status_first fr cfg uc ts rt r :
  status_code r <> expected_status uc ->
  let res := check_url fr cfg uc ts (Responded rt r) in
  res !! "error" = Some (PyStr ("Unexpected status: " +:+ str_int (status_code r)))
  /\ res !! "success" = Some (PyBool false)
  /\ res !! "content_verified" = Some PyNone
  /\ errors_recorded fr cfg uc (Responded rt r)
     = [PyStr ("Unexpected status: " +:+ str_int (status_code r))].
Proof.
  intros H res. subst res. unfold check_url, errors_recorded.
  rewrite (check_url_stores_status _ _ _ _ _ H). by repeat split.
Qed.

Lemma C2_unexpected_status_first_witness :
  let res := check_url decimal_repr CONFIG example_com noon
               (Responded (2500126 # 1000) not_found) in
  res !! "error" = Some (PyStr "Unexpected status: 404")
  /\ res !! "success" = Some (PyBool false)
  /\ res !! "content_verified" = Some PyNone
  /\ errors_recorded decimal_repr CONFIG example_com
       (Responded (2500126 # 1000) not_found)
     = [PyStr "Unexpected status: 404"].
Proof.
  apply (C2_unexpected_status_first decimal_repr CONFIG example_com noon
           (2500126 # 1000) not_found).
  simpl. lia.
Defined.



(** C6: a configured search string that does not occur in the body of a
    response with the expected status and a response time within the cap
    yields [success = False], [content_verified = False] and the error
    "Search string not found in response". *)
Theorem C6_search_string_missing fr cfg uc ts rt r s :
  search_string uc = Some s ->
  ~ occurs_in s (text r) ->
  status_code r = expected_status uc ->
  (rt <= inject_Z (max_response_time_ms (monitoring cfg)))%Q ->
  let res := check_url fr cfg uc ts (Responded rt r) in
  res !! "success" = Some (PyBool false)
  /\ res !! "content_verified" = Some (PyBool false)
  /\ res !! "error" = Some (PyStr "Search string not found in response").
Proof.
  intros Hs Hno Hst _ res. subst res.
  assert (Hin : str_in s (text r) = false).
  { destruct (str_in s (text r)) eqn:E; [|done]. by apply str_in_spec in E. }
  assert (Ht : truthy_opt_str (search_string uc) = Some s).
  { apply truthy_opt_str_Some. split; [done|]. intros ->.
    by rewrite str_in_empty in Hin. }
  unfold check_url. rewrite (check_url_stores_search _ _ _ _ _ _ Hst Ht), Hin.
  by repeat split.
Qed.

Lemma C6_search_string_missing_witness :
  let res := check_url decimal_repr CONFIG example_com noon
               (Responded (50126 # 1000) other_page) in
  res !! "success" = Some (PyBool false)
  /\ res !! "content_verified" = Some (PyBool false)
  /\ res !! "error" = Some (PyStr "Search string not found in response").
Proof.
  apply (C6_search_string_missing decimal_repr CONFIG example_com noon
           (50126 # 1000) other_page "Example Domain").
  - reflexivity.
  - intros H. apply str_in_spec in H. vm_compute in H. discriminate.
  - reflexivity.
  - vm_compute. discriminate.
Defined.

(** Without a usable search string the content check assigns nothing. *)
Lemma content_verified_unset fr cfg uc ts p :
  truthy_opt_str (search_string uc) = None ->
  check_url fr cfg uc ts p !! "content_verified" = Some PyNone.
Proof.
  intros Hs. destruct p as [rt r|e]; [|done].
  unfold check_url, check_url_stores, check_content, check_response_time.
  rewrite Hs. simpl.
  destruct (negb _); [done|]. by destruct (float_gt_int _ _).
Qed.

(** C9: a target without a search string gets a result whose
    [content_verified] is [None] (the key is bound, to [None], never to
    [False]), whatever the request does. *)
Theorem C9_no_search_string_no_verdict fr cfg uc ts p :
  search_string uc = None ->
  check_url fr cfg uc ts p !! "content_verified" = Some PyNone.
Proof.
  intros Hs. apply content_verified_unset. by rewrite Hs.
Qed.

Lemma C9_no_search_string_no_verdict_witness :
  check_url decimal_repr CONFIG google_com noon (Responded (50126 # 1000) page)
    !! "content_verified" = Some PyNone.
Proof.
  apply (C9_no_search_string_no_verdict decimal_repr CONFIG google_com noon
           (Responded (50126 # 1000) page)).
  reflexivity.
Defined.

(** C10: a target whose search string is the empty string is checked
    exactly as the same target without a search string: the content check
    is skipped and [content_verified] stays [None], although the empty
    string occurs in every body. *)
Theorem C10_empty_search_string_skipped fr cfg uc ts p :
  search_string uc = Some "" ->
  check_url fr cfg uc ts p = check_url fr cfg (without_search_string uc) ts p
  /\ check_url_stores fr cfg uc p
     = check_url_stores fr cfg (without_search_string uc) p
  /\ check_url fr cfg uc ts p !! "content_verified" = Some PyNone
  /\ (forall body, occurs_in "" body).
Proof.
  intros Hs.
  assert (Hst : check_url_stores fr cfg uc p
                = check_url_stores fr cfg (without_search_string uc) p).
  { destruct p as [rt r|e]; [|done].
    unfold check_url_stores, check_content. by rewrite Hs. }
  assert (Hall : check_url fr cfg uc ts p
                 = check_url fr cfg (without_search_string uc) ts p).
  { unfold check_url. by rewrite Hst. }
  repeat split; [done | done | | ].
  - apply content_verified_unset. by rewrite Hs.
  - intros body. by exists "", body.
Qed.

Lemma C10_empty_search_string_skipped_witness :
  let p := Responded (50126 # 1000) page in
  check_url decimal_repr CONFIG empty_search noon p
  = check_url decimal_repr CONFIG (without_search_string empty_search) noon p
  /\ check_url_stores decimal_repr CONFIG empty_search p
     = check_url_stores decimal_repr CONFIG (without_search_string empty_search) p
  /\ check_url decimal_repr CONFIG empty_search noon p !! "content_verified"
     = Some PyNone
  /\ (forall body, occurs_in "" body).
Proof.
  apply (C10_empty_search_string_skipped decimal_repr CONFIG empty_search noon
           (Responded (50126 # 1000) page)).
  reflexivity.
Defined.

(** What a response leads to: the error of the first failing sub-check in
    precedence order, success exactly when none fails, and at most one
    assignment to [error]. *)
Lemma check_url_first_failure fr cfg uc ts rt r :
  let res := check_url fr cfg uc ts (Responded rt r) in
  let ff := first_failure cfg uc rt r in
  res !! "error" = Some (error_value (failure_message fr rt r <$> ff))
  /\ res !! "success" = Some (PyBool match ff with Some _ => false | None => true end)
  /\ errors_recorded fr cfg uc (Responded rt r)
     = match ff with
       | Some c => [PyStr (failure_message fr rt r c)]
       | None => []
       end.
Proof.
  unfold check_url, errors_recorded, first_failure, precedence,
    check_url_stores, check_content, check_response_time, fails.
  destruct (status_code r =? expected_status uc); simpl; [|done].
  destruct (truthy_opt_str (search_string uc)) as [s|]; simpl.
  - destruct (str_in s (text r)); simpl; [|done].
    by destruct (float_gt_int rt _).
  - by destruct (float_gt_int rt _).
Qed.

(** The content verdict of a successful check of a response. *)
Lemma check_url_success_content fr cfg uc ts rt r s :
  truthy_opt_str (search_string uc) = Some s ->
  check_url fr cfg uc ts (Responded rt r) !! "success" = Some (PyBool true) ->
  check_url fr cfg uc ts (Responded rt r) !! "content_verified" = Some (PyBool true).
Proof.
  intros Hs. unfold check_url, check_url_stores, check_content, check_response_time.
  rewrite Hs.
  destruct (status_code r =? expected_status uc); simpl; [|done].
  destruct (str_in s (text r)); simpl; [|done].
  by destruct (float_gt_int rt _).
Qed.

(** C1 (as amended): in every result of [check_url], [success = True]
    implies that [error] is [None] and, when the search string is set to a
    non-empty string, that [content_verified = True]; [error] is assigned
    at most once, it holds that one assignment, and for a response it is
    the message of the first sub-check that fails in precedence order. *)
Theorem C1_success_invariant fr cfg uc ts p :
  let res := check_url fr cfg uc ts p in
  (res !! "success" = Some (PyBool true) ->
     res !! "error" = Some PyNone
     /\ forall s, search_string uc = Some s -> s <> "" ->
                  res !! "content_verified" = Some (PyBool true))
  /\ (length (errors_recorded fr cfg uc p) <= 1)%nat
  /\ res !! "error" = Some (default PyNone (head (errors_recorded fr cfg uc p)))
  /\ (forall rt r, p = Responded rt r ->
       res !! "error"
       = Some (error_value (failure_message fr rt r <$> first_failure cfg uc rt r))).
Proof.
  intros res. subst res. destruct p as [rt r|e].
  - destruct (check_url_first_failure fr cfg uc ts rt r) as (He & Hs & Hr).
    rewrite Hr. split; [|split; [|split]].
    + intros Hsucc. rewrite Hs in Hsucc.
      destruct (first_failure cfg uc rt r) as [c|] eqn:Eff; [done|].
      split; [by rewrite He|].
      intros s Hsome Hne.
      apply (check_url_success_content fr cfg uc ts rt r s).
      * by apply truthy_opt_str_Some.
      * by rewrite Hs.
    + destruct (first_failure cfg uc rt r); simpl; lia.
    + rewrite He. by destruct (first_failure cfg uc rt r).
    + by intros ?? [= <- <-].
  - split; [done|]. split; [simpl; lia|]. split; [done|]. by intros ?? [=].
Qed.

(** C1 as stated fails where the search string is set to the empty string:
    the check succeeds and [content_verified] is [None], not [True]. *)
Lemma C1_counterexample :
  let res := check_url decimal_repr CONFIG empty_search noon
               (Responded (50126 # 1000) page) in
  search_string empty_search = Some ""
  /\ res !! "success" = Some (PyBool true)
  /\ res !! "content_verified" = Some PyNone
  /\ res !! "content_verified" <> Some (PyBool true).
Proof. by repeat split. Qed.

(** C3 (as amended): for a response that passes the status and content
    sub-checks, [response_time_ms] records the elapsed milliseconds rounded
    to two decimal places, but the latency sub-check compares the unrounded
    elapsed milliseconds with the cap: the check fails exactly when they
    exceed it, with the error "Slow response: <elapsed>ms" where the
    interpolated value is the unrounded one. *)
Theorem C3_latency_on_unrounded_time fr cfg uc ts rt r :
  status_code r = expected_status uc ->
  content_found uc r ->
  let res := check_url fr cfg uc ts (Responded rt r) in
  let cap := inject_Z (max_response_time_ms (monitoring cfg)) in
  res !! "response_time_ms" = Some (PyFloat (round2 rt))
  /\ ((cap < rt)%Q ->
       res !! "success" = Some (PyBool false)
       /\ res !! "error" = Some (PyStr ("Slow response: " +:+ fr rt +:+ "ms")))
  /\ ((rt <= cap)%Q ->
       res !! "success" = Some (PyBool true) /\ res !! "error" = Some PyNone).
Proof.
  intros Hst Hc res cap. subst res cap.
  assert (Hstores : check_url_stores fr cfg uc (Responded rt r)
    = ("response_time_ms", PyFloat (round2 rt)) ::
      ("status_code", PyInt (status_code r)) ::
      match truthy_opt_str (search_string uc) with
      | Some _ => [("content_verified", PyBool true)]
      | None => []
      end ++ check_response_time fr cfg rt).
  { destruct (truthy_opt_str (search_string uc)) as [s|] eqn:Es.
    - rewrite (check_url_stores_search _ _ _ _ _ _ Hst Es).
      apply truthy_opt_str_Some in Es as [Es _].
      apply Hc, str_in_spec in Es. by rewrite Es.
    - by rewrite (check_url_stores_no_search _ _ _ _ _ Hst Es). }
  unfold check_url. rewrite Hstores. unfold check_response_time.
  split; [|split].
  - destruct (truthy_opt_str _); by destruct (float_gt_int _ _).
  - intros Hslow. apply float_gt_int_true in Hslow. rewrite Hslow.
    by destruct (truthy_opt_str _).
  - intros Hfast. apply float_gt_int_false in Hfast. rewrite Hfast.
    by destruct (truthy_opt_str _).
Qed.

Lemma C3_latency_on_unrounded_time_witness :
  let res := check_url decimal_repr CONFIG example_com noon
               (Responded (2500126 # 1000) page) in
  let cap := inject_Z (max_response_time_ms (monitoring CONFIG)) in
  res !! "response_time_ms" = Some (PyFloat (round2 (2500126 # 1000)))
  /\ ((cap < 2500126 # 1000)%Q ->
       res !! "success" = Some (PyBool false)
       /\ res !! "error"
          = Some (PyStr ("Slow response: " +:+ decimal_repr (2500126 # 1000) +:+ "ms")))
  /\ ((2500126 # 1000 <= cap)%Q ->
       res !! "success" = Some (PyBool true) /\ res !! "error" = Some PyNone).
Proof.
  apply (C3_latency_on_unrounded_time decimal_repr CONFIG example_com noon
           (2500126 # 1000) page).
  - reflexivity.
  - intros s [= <-]. by exists "<h1>", "</h1>".
Defined.

(** C3 as stated fails on an elapsed time of 2000.004 ms against a cap of
    2000 ms: the recorded [response_time_ms], 2000.0, does not exceed the
    cap, yet the check fails, and the message carries the unrounded value. *)
Lemma C3_counterexample :
  let res := check_url decimal_repr CONFIG google_com noon
               (Responded (2000004 # 1000) page) in
  res !! "response_time_ms" = Some (PyFloat (200000 # 100))
  /\ float_gt_int (200000 # 100) (max_response_time_ms (monitoring CONFIG)) = false
  /\ res !! "success" = Some (PyBool false)
  /\ res !! "error" = Some (PyStr "Slow response: 2000.004ms")
  /\ "Slow response: " +:+ decimal_repr (200000 # 100) +:+ "ms"
     = "Slow response: 2000.0ms".
Proof. by repeat split. Qed.

(** ** Traces *)

Lemma trace_bind {A B} (m : M A) (k : A -> M B) :
  trace (bind m k)
  = match result_of m with
    | Ok a => trace m ++ trace (k a)
    | Raise _ => trace m
    end.
Proof. destruct m as [tr [a|e]]; simpl; [|done]. by destruct (k a). Qed.

Lemma result_bind {A B} (m : M A) (k : A -> M B) :
  result_of (bind m k)
  = match result_of m with
    | Ok a => result_of (k a)
    | Raise e => Raise e
    end.
Proof. destruct m as [tr [a|e]]; simpl; [|done]. by destruct (k a). Qed.

Lemma alerts_of_app tr1 tr2 : alerts_of (tr1 ++ tr2) = alerts_of tr1 ++ alerts_of tr2.
Proof. induction tr1 as [|[] tr1 IH]; simpl; by rewrite ?IH. Qed.

Lemma requests_of_app tr1 tr2 :
  requests_of (tr1 ++ tr2) = requests_of tr1 ++ requests_of tr2.
Proof. induction tr1 as [|[] tr1 IH]; simpl; by rewrite ?IH. Qed.

Lemma internal_no_alerts tr : Forall internal tr -> alerts_of tr = [].
Proof. induction 1 as [|[] tr H _ IH]; simpl; done. Qed.

Lemma internal_no_requests tr : Forall internal tr -> requests_of tr = [].
Proof. induction 1 as [|[] tr H _ IH]; simpl; done. Qed.

Lemma quiet_ret {A} (a : A) : quiet (ret a).
Proof. constructor. Qed.

Lemma quiet_raise {A} (e : string) : quiet (@raise A e).
Proof. constructor. Qed.

Lemma quiet_bind {A B} (m : M A) (k : A -> M B) :
  quiet m -> (forall a, quiet (k a)) -> quiet (bind m k).
Proof.
  unfold quiet. intros Hm Hk. rewrite trace_bind.
  destruct (result_of m); [|done]. apply Forall_app. split; [done | apply Hk].
Qed.

Lemma quiet_try_except {A} (body : M A) (handler : string -> M A) :
  quiet body -> (forall e, quiet (handler e)) -> quiet (try_except body handler).
Proof.
  unfold quiet. destruct body as [tr [a|e]]; simpl; intros Hb Hh; [done|].
  specialize (Hh e). destruct (handler e) as [tr' r]. simpl in *.
  apply Forall_app. by split.
Qed.

Lemma quiet_with_exit {A} (body : M A) (exit : M unit) :
  quiet body -> quiet exit -> quiet (with_exit body exit).
Proof.
  unfold quiet. destruct body as [tr r], exit as [tr' [[]|e]]; simpl;
    intros Hb He; apply Forall_app; by split.
Qed.

Lemma quiet_getitem d key : quiet (getitem d key).
Proof. unfold getitem. destruct (d !! key); [apply quiet_ret | apply quiet_raise]. Qed.

Lemma quiet_smtp_call srv s : quiet (smtp_call srv s).
Proof. unfold smtp_call. destruct (srv s); [apply quiet_raise | apply quiet_ret]. Qed.

Lemma quiet_logging lv line : quiet (logging lv line).
Proof. by repeat constructor. Qed.

Lemma quiet_emit ev : internal ev -> quiet (emit ev).
Proof. by repeat constructor. Qed.

Ltac quiet_step :=
  match goal with
  | |- quiet (bind _ _) => apply quiet_bind; [|intros ?]
  | |- quiet (try_except _ _) => apply quiet_try_except; [|intros ?]
  | |- quiet (with_exit _ _) => apply quiet_with_exit
  | |- quiet (ret _) => apply quiet_ret
  | |- quiet (raise _) => apply quiet_raise
  | |- quiet (getitem _ _) => apply quiet_getitem
  | |- quiet (smtp_call _ _) => apply quiet_smtp_call
  | |- quiet (logging _ _) => apply quiet_logging
  | |- quiet (emit _) => apply quiet_emit; exact I
  end.

Lemma quiet_smtp_session srv msg : quiet (smtp_session srv msg).
Proof.
  unfold smtp_session. repeat quiet_step.
Qed.

Lemma quiet_build_message fr cfg check_result :
  quiet (build_message fr cfg check_result).
Proof. unfold build_message. repeat quiet_step. Qed.

(** [send_alert] leaves one alert in the trace, its own, and sends no
    request. *)
Lemma send_alert_trace fr cfg check_result srv :
  alerts_of (trace (send_alert fr cfg check_result srv)) = [check_result]
  /\ requests_of (trace (send_alert fr cfg check_result srv)) = [].
Proof.
  unfold send_alert. rewrite trace_bind. simpl.
  match goal with |- context [trace ?m] => assert (Hq : quiet m) end.
  { repeat quiet_step;
      first [apply quiet_build_message | apply quiet_smtp_session
            | by repeat constructor]. }
  split.
  - by rewrite (internal_no_alerts _ Hq).
  - by rewrite (internal_no_requests _ Hq).
Qed.

(** [send_alert] returns a boolean: no exception leaves it. *)
Lemma send_alert_returns fr cfg check_result srv :
  exists delivered, result_of (send_alert fr cfg check_result srv) = Ok delivered.
Proof.
  unfold send_alert. rewrite result_bind. simpl.
  match goal with |- context [try_except ?b _] => destruct b as [tr [a|e]] end;
    simpl; eauto.
Qed.


(** ** One iteration of [run_checks] *)

Lemma lookup_fold_stores (ss : list store) (d : dict) (key : string) :
  is_Some (d !! key) -> is_Some (fold_left apply_store ss d !! key).
Proof.
  revert d. induction ss as [|[k v] ss IH]; intros d Hd; simpl; [done|].
  apply IH. unfold apply_store. simpl.
  destruct (decide (k = key)) as [->|Hne].
  - rewrite lookup_insert_eq. eauto.
  - by rewrite lookup_insert_ne.
Qed.

(** Every key of the initial dictionary is still bound in the result. *)
Lemma check_url_bound fr cfg uc ts p key :
  is_Some (initial_result uc ts !! key) ->
  is_Some (check_url fr cfg uc ts p !! key).
Proof. apply lookup_fold_stores. Qed.

(** [success] is bound to a boolean. *)
Lemma check_url_success_bool fr cfg uc ts p :
  exists b, check_url fr cfg uc ts p !! "success" = Some (PyBool b).
Proof.
  destruct p as [rt r|e]; [|by exists false].
  destruct (check_url_first_failure fr cfg uc ts rt r) as (_ & Hs & _). eauto.
Qed.

(** One iteration ends normally, requests its URL once, and dispatches one
    alert when the check failed and none when it succeeded. *)
Lemma run_check_spec fr cfg uc o :
  let res := check_url fr cfg uc (obs_timestamp o) (obs_probe o) in
  result_of (run_check fr cfg uc o) = Ok tt
  /\ requests_of (trace (run_check fr cfg uc o)) = [url uc]
  /\ alerts_of (trace (run_check fr cfg uc o)) = if succeeded res then [] else [res].
Proof.
  intros res.
  destruct (check_url_success_bool fr cfg uc (obs_timestamp o) (obs_probe o))
    as [b Hb].
  assert (Hrt : is_Some (res !! "response_time_ms")) by by apply check_url_bound.
  assert (Herr : is_Some (res !! "error")) by by apply check_url_bound.
  destruct Hrt as [rt Hrt], Herr as [err Herr].
  destruct (send_alert_returns fr cfg res (obs_relay o)) as [delivered Hd].
  destruct (send_alert_trace fr cfg res (obs_relay o)) as [Ha Hr].
  unfold succeeded. fold res in Hb. rewrite Hb.
  unfold run_check, check_url_io, getitem. simpl. fold res.
  rewrite Hb. simpl. destruct b; simpl.
  - rewrite Hrt. by simpl.
  - rewrite Herr. simpl.
    destruct (send_alert fr cfg res (obs_relay o)) as [tr out].
    simpl in *. subst out. simpl.
    by rewrite app_nil_r, Ha, Hr.
Qed.

(** ** The cycle *)

Lemma run_checks_loop_spec fr cfg env targets :
  result_of (run_checks_loop fr cfg env targets) = Ok tt
  /\ requests_of (trace (run_checks_loop fr cfg env targets)) = url <$> targets
  /\ alerts_of (trace (run_checks_loop fr cfg env targets))
     = filter (fun r => succeeded r = false) (cycle_results fr cfg env targets).
Proof.
  revert env. induction targets as [|uc rest IH]; intros env; [done|].
  destruct (run_check_spec fr cfg uc (env O)) as (Hok & Hreq & Hal).
  destruct (IH (fun i => env (S i))) as (IHok & IHreq & IHal).
  cbn [run_checks_loop cycle_results].
  rewrite result_bind, trace_bind, Hok, requests_of_app, alerts_of_app.
  rewrite Hreq, Hal, IHreq, IHal, filter_cons.
  repeat split; [done|].
  destruct (succeeded _); by case_decide.
Qed.

Lemma run_checks_spec fr cfg env :
  result_of (run_checks fr cfg env) = Ok tt
  /\ requests_of (trace (run_checks fr cfg env)) = url <$> urls cfg
  /\ alerts_of (trace (run_checks fr cfg env))
     = filter (fun r => succeeded r = false) (cycle_results fr cfg env (urls cfg)).
Proof.
  destruct (run_checks_loop_spec fr cfg env (urls cfg)) as (Hok & Hreq & Hal).
  unfold run_checks.
  rewrite !result_bind, !trace_bind. simpl. rewrite Hok.
  rewrite requests_of_app, alerts_of_app, Hreq, Hal. simpl.
  by rewrite !app_nil_r.
Qed.

(** ** The SMTP session *)

(** A step that raises makes the session raise. *)
Lemma smtp_session_raises srv msg s e :
  srv s = Some e -> exists e', result_of (smtp_session srv msg) = Raise e'.
Proof.
  intros Hs. unfold smtp_session, smtp_call, with_exit.
  destruct (srv Connect) eqn:E1; [simpl; eauto|].
  destruct (srv StartTLS) eqn:E2, (srv Login) eqn:E3,
    (srv SendMessage) eqn:E4, (srv Quit) eqn:E5; simpl; eauto.
  destruct s; congruence.
Qed.

(** On a relay without failure the session ends normally. *)
Lemma smtp_session_ok srv msg :
  (forall s, srv s = None) -> result_of (smtp_session srv msg) = Ok tt.
Proof.
  intros H. unfold smtp_session, smtp_call, with_exit. by rewrite !H.
Qed.

Lemma send_alert_failed fr cfg check_result srv s e :
  srv s = Some e -> result_of (send_alert fr cfg check_result srv) = Ok false.
Proof.
  intros Hs. unfold send_alert. rewrite result_bind. simpl.
  destruct (build_message fr cfg check_result) as [tr [msg|e0]]; simpl; [|done].
  destruct (smtp_session_raises srv msg s e Hs) as [e' He'].
  destruct (smtp_session srv msg) as [tr' out]. simpl in He'. by subst out.
Qed.

(** A result of [check_url] sent through a relay without failure is
    delivered. *)
Lemma send_alert_delivered fr cfg uc ts p srv :
  (forall s, srv s = None) ->
  result_of (send_alert fr cfg (check_url fr cfg uc ts p) srv) = Ok true.
Proof.
  intros Hsrv.
  destruct (check_url_bound fr cfg uc ts p "url") as [u Hu]; [done|].
  destruct (check_url_bound fr cfg uc ts p "timestamp") as [t Ht]; [done|].
  destruct (check_url_bound fr cfg uc ts p "error") as [err Herr]; [done|].
  unfold send_alert, build_message, getitem. rewrite Hu, Ht, Herr. simpl.
  match goal with |- context [smtp_session srv ?m] =>
    pose proof (smtp_session_ok srv m Hsrv) as Hok;
    destruct (smtp_session srv m) as [tr out]
  end.
  simpl in Hok. by subst out.
Qed.

(** C7: in one cycle, the alerts dispatched are exactly the failed results
    of the cycle, one dispatch for each, in the order of the targets; the
    iteration of a target dispatches one alert when its check failed and
    none when it succeeded. *)
Theorem C7_one_alert_per_failed_check fr cfg env :
  alerts_of (trace (run_checks fr cfg env))
  = filter (fun r => succeeded r = false) (cycle_results fr cfg env (urls cfg))
  /\ (forall uc o,
      let res := check_url fr cfg uc (obs_timestamp o) (obs_probe o) in
      alerts_of (trace (run_check fr cfg uc o)) = if succeeded res then [] else [res]).
Proof.
  split.
  - apply run_checks_spec.
  - intros uc o. apply run_check_spec.
Qed.

(** C8: [send_alert] always returns a boolean, whatever the result and the
    relay are: an exception of any step of the SMTP session is caught and
    the return value is [False].  Hence [run_checks] ends normally and
    requests every target, in order, whatever the relays do. *)
Theorem C8_delivery_failure_contained fr cfg :
  (forall check_result srv,
     exists delivered, result_of (send_alert fr cfg check_result srv) = Ok delivered)
  /\ (forall check_result srv s e,
      srv s = Some e ->
      result_of (send_alert fr cfg check_result srv) = Ok false)
  /\ (forall env,
      result_of (run_checks fr cfg env) = Ok tt
      /\ requests_of (trace (run_checks fr cfg env)) = url <$> urls cfg).
Proof.
  split; [|split].
  - intros. apply send_alert_returns.
  - intros. by eapply send_alert_failed.
  - intros env. destruct (run_checks_spec fr cfg env) as (? & ? & _). done.
Qed.

(** The cycle of [bad_day]: the first target fails and its alert is not
    delivered; the second target is still checked. *)
Example bad_day_cycle :
  result_of (run_checks decimal_repr CONFIG bad_day) = Ok tt
  /\ requests_of (trace (run_checks decimal_repr CONFIG bad_day))
     = ["https://www.google.com"; "https://www.example.com"]
  /\ alerts_of (trace (run_checks decimal_repr CONFIG bad_day))
     = [check_url decimal_repr CONFIG google_com noon (Raised "Connection refused")]
  /\ logs_of (trace (run_checks decimal_repr CONFIG bad_day))
     = [(INFO, "Starting URL monitoring checks...");
        (ERROR, "✗ https://www.google.com - Connection refused");
        (ERROR, "Failed to send alert: (535, b'5.7.8 Username and Password not accepted')");
        (INFO, "✓ https://www.example.com - 50.13ms");
        (INFO, "Completed all checks")].
Proof. by vm_compute. Qed.

(** ** The alert message *)

(** A key that is missing from the result is rendered as "N/A". *)
Lemma diagnostic_missing fr (check_result : dict) key :
  check_result !! key = None -> diagnostic fr check_result key = "N/A".
Proof. unfold diagnostic, dict_get. by intros ->. Qed.

(** A key that is bound is rendered as its value, [None] included. *)
Lemma diagnostic_bound fr (check_result : dict) key v :
  check_result !! key = Some v -> diagnostic fr check_result key = py_str fr v.
Proof. unfold diagnostic, dict_get. by intros ->. Qed.

(** In a result of [check_url] the three diagnostic keys are always bound,
    so the default "N/A" of [dict.get] is never used for it. *)
Lemma diagnostic_of_check_url fr cfg uc ts p key :
  key ∈ ["status_code"; "response_time_ms"; "content_verified"] ->
  exists v, check_url fr cfg uc ts p !! key = Some v
            /\ diagnostic fr (check_url fr cfg uc ts p) key = py_str fr v.
Proof.
  intros Hk.
  destruct (check_url_bound fr cfg uc ts p key) as [v Hv].
  - set_unfold. by destruct Hk as [->|[->|[->|[]]]].
  - exists v. split; [done | by apply diagnostic_bound].
Qed.

(** C4: on the code, the claim fails.  In the result of a check whose
    request raised, [status_code], [response_time_ms] and [content_verified]
    are absent (bound to [None]), and the body of the alert renders each of
    them as "None", not as "N/A". *)
Theorem C4_absent_fields_render_None fr cfg uc ts e :
  let res := check_url fr cfg uc ts (Raised e) in
  (res !! "status_code" = Some PyNone
   /\ diagnostic fr res "status_code" = "None")
  /\ (res !! "response_time_ms" = Some PyNone
      /\ diagnostic fr res "response_time_ms" = "None")
  /\ (res !! "content_verified" = Some PyNone
      /\ diagnostic fr res "content_verified" = "None")
  /\ exists msg,
       result_of (build_message fr cfg res) = Ok msg
       /\ msg_body msg = alert_body fr (PyStr (url uc)) (PyStr ts) (PyStr e) res.
Proof.
  intros res. subst res. rewrite check_url_raised.
  repeat split. by eexists.
Qed.

(** The body of the alert for a refused connection, in full. *)
Example alert_body_connection_refused :
  msg_body <$> (match result_of (build_message decimal_repr CONFIG
                  (check_url decimal_repr CONFIG google_com noon
                     (Raised "Connection refused"))) with
                | Ok msg => Some msg
                | Raise _ => None
                end)
  = Some "
            URL Monitoring Alert
            -------------------
            
            URL: https://www.google.com
            Time: 2024-01-01T12:00:00
            Error: Connection refused
            
            Diagnostics:
            - Status Code: None
            - Response Time: None ms
            - Content Verified: None
            
            Recommended Actions:
            1. Verify server connectivity
            2. Check application logs
            3. Validate recent deployments
            ".
Proof. by vm_compute. Qed.

(** The headers of that alert. *)
Example alert_headers_connection_refused :
  (fun msg => (msg_from msg, msg_to msg, msg_subject msg)) <$>
    (match result_of (build_message decimal_repr CONFIG
               (check_url decimal_repr CONFIG google_com noon
                  (Raised "Connection refused"))) with
     | Ok msg => Some msg
     | Raise _ => None
     end)
  = Some ("monitoring@yourdomain.com",
          "admin@yourdomain.com, backup@yourdomain.com",
          "[URL Monitor] Failure: https://www.google.com").
Proof. by vm_compute. Qed.

(** ** More on [check_url] *)

(** The keys of every result. *)
Lemma dom_fold_stores (ss : list store) (d : dict) :
  Forall (fun s : store => s.1 ∈ dom d) ss ->
  dom (fold_left apply_store ss d) = dom d.
Proof.
  revert d. induction ss as [|[k v] ss IH]; intros d Hss; [done|].
  apply Forall_cons in Hss as [Hk Hss]. simpl in *.
  assert (Hd : dom (apply_store d (k, v)) = dom d).
  { unfold apply_store. simpl. rewrite dom_insert_L.
    apply subseteq_union_1_L. by apply singleton_subseteq_l. }
  rewrite IH; [done|]. by rewrite Hd.
Qed.

Lemma dom_initial_result uc ts : dom (initial_result uc ts) = result_keys.
Proof.
  unfold initial_result. rewrite !dom_insert_L, dom_empty_L.
  by vm_compute.
Qed.

Ltac key_in := apply bool_decide_unpack; by vm_compute.

Lemma check_url_stores_keys fr cfg uc p :
  Forall (fun s : store => s.1 ∈ result_keys) (check_url_stores fr cfg uc p).
Proof.
  destruct p as [rt r|e]; unfold check_url_stores, check_content, check_response_time.
  - destruct (status_code r =? expected_status uc); simpl.
    + destruct (truthy_opt_str (search_string uc)) as [s|]; simpl.
      * destruct (str_in s (text r)); simpl;
          [destruct (float_gt_int rt _)|]; repeat constructor; key_in.
      * destruct (float_gt_int rt _); repeat constructor; key_in.
    + repeat constructor; key_in.
  - repeat constructor; key_in.
Qed.

(** X1: a result has the same seven keys whatever the request did. *)
Theorem check_url_keys fr cfg uc ts p :
  dom (check_url fr cfg uc ts p) = result_keys.
Proof.
  unfold check_url. rewrite dom_fold_stores; [apply dom_initial_result|].
  rewrite dom_initial_result. apply check_url_stores_keys.
Qed.

(** Case analysis on the path [check_url] takes on a response. *)
Ltac check_url_paths rt r uc s :=
  unfold check_url, errors_recorded, check_url_stores, check_content,
    check_response_time;
  destruct (status_code r =? expected_status uc) eqn:Hstatus; simpl;
  [ destruct (truthy_opt_str (search_string uc)) as [s|] eqn:Hsearch; simpl;
    [ destruct (str_in s (text r)) eqn:Hin; simpl;
      [ destruct (float_gt_int rt _) eqn:Hslow; simpl | ]
    | destruct (float_gt_int rt _) eqn:Hslow; simpl ]
  | ].

(** X2: the result names the target it was computed for and the time of
    the check, whatever the request did. *)
Theorem check_url_echoes_target fr cfg uc ts p :
  check_url fr cfg uc ts p !! "url" = Some (PyStr (url uc))
  /\ check_url fr cfg uc ts p !! "timestamp" = Some (PyStr ts).
Proof.
  destruct p as [rt r|e]; [|done].
  check_url_paths rt r uc s; done.
Qed.

(** The content sub-check passes exactly when a configured search string
    occurs in the body. *)
Lemma content_check_passes cfg uc rt r :
  fails cfg uc rt r ContentCheck = false <-> content_found uc r.
Proof.
  unfold fails, content_found.
  destruct (truthy_opt_str (search_string uc)) as [s|] eqn:Hs.
  - apply truthy_opt_str_Some in Hs as [Hs Hne].
    rewrite negb_false_iff, str_in_spec. split.
    + intros Hin s' Hs'. congruence.
    + intros H. by apply H.
  - split; [|done]. intros _ s Hs'.
    destruct (search_string uc) as [[|a s0]|]; [|done|done].
    injection Hs' as <-. by exists "", (text r).
Qed.

(** No sub-check fails exactly when each of the three passes. *)
Lemma first_failure_None cfg uc rt r :
  first_failure cfg uc rt r = None <->
  status_code r = expected_status uc
  /\ content_found uc r
  /\ (rt <= inject_Z (max_response_time_ms (monitoring cfg)))%Q.
Proof.
  rewrite <- content_check_passes with (cfg := cfg) (rt := rt).
  rewrite <- float_gt_int_false, <- Z.eqb_eq.
  unfold first_failure, precedence.
  rewrite !filter_cons, filter_nil.
  change (fails cfg uc rt r StatusCheck)
    with (negb (status_code r =? expected_status uc)).
  change (fails cfg uc rt r LatencyCheck)
    with (float_gt_int rt (max_response_time_ms (monitoring cfg))).
  destruct (status_code r =? expected_status uc),
    (fails cfg uc rt r ContentCheck),
    (float_gt_int rt (max_response_time_ms (monitoring cfg)));
    simpl; repeat case_decide; simpl; try done; intuition congruence.
Qed.

(** X3: a check succeeds exactly when the request returned a response with
    the expected status, a configured search string occurs in its body, and
    the elapsed time does not exceed the cap. *)
Theorem check_url_success_iff fr cfg uc ts p :
  check_url fr cfg uc ts p !! "success" = Some (PyBool true) <->
  exists rt r,
    p = Responded rt r
    /\ status_code r = expected_status uc
    /\ content_found uc r
    /\ (rt <= inject_Z (max_response_time_ms (monitoring cfg)))%Q.
Proof.
  destruct p as [rt r|e].
  - destruct (check_url_first_failure fr cfg uc ts rt r) as (_ & Hs & _).
    rewrite Hs. split.
    + intros Hsucc. exists rt, r. split; [done|].
      apply first_failure_None. by destruct (first_failure cfg uc rt r).
    + intros (rt' & r' & [= <- <-] & H). apply first_failure_None in H.
      by rewrite H.
  - split; [done|]. by intros (? & ? & [=] & _).
Qed.

(** X4: [error] is [None] exactly when the check succeeded; a failed check
    always carries an error string. *)
Theorem check_url_error_iff_failed fr cfg uc ts p :
  let res := check_url fr cfg uc ts p in
  (res !! "error" = Some PyNone <-> res !! "success" = Some (PyBool true))
  /\ (res !! "success" = Some (PyBool false) <->
      exists m, res !! "error" = Some (PyStr m)).
Proof.
  intros res. subst res. destruct p as [rt r|e].
  - destruct (check_url_first_failure fr cfg uc ts rt r) as (He & Hs & _).
    rewrite He, Hs. destruct (first_failure cfg uc rt r); simpl.
    + split; [done|]. split; [eauto | done].
    + split; [done|]. split; [done | by intros [? ?]].
  - rewrite check_url_raised. split; [done|]. split; [eauto | done].
Qed.

(** What a response leaves in [status_code] and [response_time_ms]. *)
Lemma check_url_response_fields fr cfg uc ts rt r :
  check_url fr cfg uc ts (Responded rt r) !! "status_code"
    = Some (PyInt (status_code r))
  /\ check_url fr cfg uc ts (Responded rt r) !! "response_time_ms"
     = Some (PyFloat (round2 rt)).
Proof. check_url_paths rt r uc s; done. Qed.

(** X5: the status code and the rounded response time are recorded as soon
    as a response arrived, also when a sub-check fails; they stay [None]
    when the request raised. *)
Theorem check_url_measurements fr cfg uc ts p :
  let res := check_url fr cfg uc ts p in
  match p with
  | Responded rt r =>
      res !! "status_code" = Some (PyInt (status_code r))
      /\ res !! "response_time_ms" = Some (PyFloat (round2 rt))
  | Raised _ =>
      res !! "status_code" = Some PyNone
      /\ res !! "response_time_ms" = Some PyNone
  end.
Proof.
  destruct p as [rt r|e]; [|done]. simpl.
  apply check_url_response_fields.
Qed.

(** X6: [content_verified] is a boolean exactly when a response with the
    expected status arrived for a target with a non-empty search string, and
    that boolean tells whether the search string occurs in the body. *)
Theorem check_url_content_verdict fr cfg uc ts p b :
  check_url fr cfg uc ts p !! "content_verified" = Some (PyBool b) <->
  exists rt r s,
    p = Responded rt r
    /\ status_code r = expected_status uc
    /\ search_string uc = Some s /\ s <> ""
    /\ (b = true <-> occurs_in s (text r)).
Proof.
  destruct p as [rt r|e].
  2: { split; [done|]. by intros (? & ? & ? & [=] & _). }
  split.
  - intros H. exists rt, r. revert H.
    check_url_paths rt r uc s; try done.
    all: apply Z.eqb_eq in Hstatus;
      apply truthy_opt_str_Some in Hsearch as [Hsearch Hne];
      intros [= <-]; exists s; repeat split; try done.
    + intros _. by apply str_in_spec.
    + intros _. by apply str_in_spec.
    + intros Hocc. apply str_in_spec in Hocc. congruence.
  - intros (rt' & r' & s & [= <- <-] & Hst & Hs & Hne & Hb).
    assert (Ht : truthy_opt_str (search_string uc) = Some s)
      by by apply truthy_opt_str_Some.
    unfold check_url. rewrite (check_url_stores_search _ _ _ _ _ _ Hst Ht).
    assert (Hin : str_in s (text r) = b).
    { destruct b.
      - apply str_in_spec. by apply Hb.
      - destruct (str_in s (text r)) eqn:E; [|done].
        apply str_in_spec, Hb in E. done. }
    rewrite Hin. unfold check_response_time.
    destruct b; [by destruct (float_gt_int rt _) | done].
Qed.

(** X7: a missing search string is reported even when the response was
    also too slow: the content check comes before the latency check, and
    the slow response leaves no error of its own. *)
Theorem check_url_content_before_latency fr cfg uc ts rt r s :
  search_string uc = Some s ->
  ~ occurs_in s (text r) ->
  status_code r = expected_status uc ->
  (inject_Z (max_response_time_ms (monitoring cfg)) < rt)%Q ->
  check_url fr cfg uc ts (Responded rt r) !! "error"
    = Some (PyStr "Search string not found in response")
  /\ errors_recorded fr cfg uc (Responded rt r)
     = [PyStr "Search string not found in response"].
Proof.
  intros Hs Hno Hst _.
  assert (Hin : str_in s (text r) = false).
  { destruct (str_in s (text r)) eqn:E; [|done]. by apply str_in_spec in E. }
  assert (Ht : truthy_opt_str (search_string uc) = Some s).
  { apply truthy_opt_str_Some. split; [done|]. intros ->.
    by rewrite str_in_empty in Hin. }
  unfold check_url, errors_recorded.
  by rewrite (check_url_stores_search _ _ _ _ _ _ Hst Ht), Hin.
Qed.

Lemma check_url_content_before_latency_witness :
  check_url decimal_repr CONFIG example_com noon
    (Responded (2500126 # 1000) other_page) !! "error"
    = Some (PyStr "Search string not found in response")
  /\ errors_recorded decimal_repr CONFIG example_com
       (Responded (2500126 # 1000) other_page)
     = [PyStr "Search string not found in response"].
Proof.
  apply (check_url_content_before_latency decimal_repr CONFIG example_com noon
           (2500126 # 1000) other_page "Example Domain").
  - reflexivity.
  - intros H. apply str_in_spec in H. vm_compute in H. discriminate.
  - reflexivity.
  - reflexivity.
Defined.

(** Rounding to hundredths does not cross an integer: a value above an
    integer is rounded to at least that integer, a value that does not
    exceed it to at most that integer. *)
Lemma round2_above_int (x : Q) (c : Z) :
  (inject_Z c < x)%Q -> (inject_Z c <= round2 x)%Q.
Proof.
  unfold round2, round_half_even. destruct x as [n d].
  unfold Qlt, Qle, Qmult, inject_Z. cbn [Qnum Qden].
  rewrite ?Pos.mul_1_r, ?Z.mul_1_r. intros Hlt.
  pose proof (Z.div_mod (n * 100) (Zpos d) ltac:(lia)) as Hdm.
  pose proof (Z.mod_pos_bound (n * 100) (Zpos d) ltac:(lia)) as Hb.
  set (f := n * 100 / Zpos d) in *. set (r := (n * 100) mod Zpos d) in *.
  clearbody f r.
  assert (c * 100 <= f) by nia.
  destruct (2 * r <? Zpos d); [lia|].
  destruct (Zpos d <? 2 * r); [lia|].
  destruct (Z.even f); lia.
Qed.

Lemma round2_below_int (x : Q) (c : Z) :
  (x <= inject_Z c)%Q -> (round2 x <= inject_Z c)%Q.
Proof.
  unfold round2, round_half_even. destruct x as [n d].
  unfold Qlt, Qle, Qmult, inject_Z. cbn [Qnum Qden].
  rewrite ?Pos.mul_1_r, ?Z.mul_1_r. intros Hle.
  pose proof (Z.div_mod (n * 100) (Zpos d) ltac:(lia)) as Hdm.
  pose proof (Z.mod_pos_bound (n * 100) (Zpos d) ltac:(lia)) as Hb.
  set (f := n * 100 / Zpos d) in *. set (r := (n * 100) mod Zpos d) in *.
  clearbody f r.
  assert (Hf : f < c * 100 \/ (f = c * 100 /\ r = 0)) by nia.
  destruct (Z.ltb_spec (2 * r) (Zpos d)); [lia|].
  destruct (Z.ltb_spec (Zpos d) (2 * r)); [lia|].
  destruct (Z.even f); lia.
Qed.

(** X8: the recorded response time never contradicts the latency verdict
    outright: when the latency check is the one that fails, the recorded
    [response_time_ms] is at least the cap, and when the check succeeds it
    is at most the cap. *)
Theorem check_url_recorded_time_vs_verdict fr cfg uc ts rt r :
  let res := check_url fr cfg uc ts (Responded rt r) in
  let cap := inject_Z (max_response_time_ms (monitoring cfg)) in
  exists recorded,
    res !! "response_time_ms" = Some (PyFloat recorded)
    /\ (first_failure cfg uc rt r = Some LatencyCheck -> (cap <= recorded)%Q)
    /\ (res !! "success" = Some (PyBool true) -> (recorded <= cap)%Q).
Proof.
  intros res cap. exists (round2 rt). subst res cap. split; [|split].
  - apply check_url_response_fields.
  - intros Hff. apply round2_above_int, float_gt_int_true.
    unfold first_failure, precedence in Hff. rewrite !filter_cons, filter_nil in Hff.
    change (fails cfg uc rt r LatencyCheck)
      with (float_gt_int rt (max_response_time_ms (monitoring cfg))) in Hff.
    destruct (float_gt_int rt _); [done|].
    repeat case_decide; simpl in Hff; congruence.
  - intros Hsucc. apply round2_below_int.
    destruct (check_url_first_failure fr cfg uc ts rt r) as (_ & Hs & _).
    rewrite Hs in Hsucc.
    destruct (first_failure cfg uc rt r) eqn:Hff; [done|].
    by apply first_failure_None in Hff as (_ & _ & Hle).
Qed.

(** ** More on [send_alert] *)

Lemma mails_of_app tr1 tr2 : mails_of (tr1 ++ tr2) = mails_of tr1 ++ mails_of tr2.
Proof. induction tr1 as [|[] tr1 IH]; simpl; by rewrite ?IH. Qed.

Lemma logs_of_app tr1 tr2 : logs_of (tr1 ++ tr2) = logs_of tr1 ++ logs_of tr2.
Proof. induction tr1 as [|[] tr1 IH]; simpl; by rewrite ?IH. Qed.

(** Case analysis on the required keys and on the steps of the relay. *)
Ltac send_alert_paths d srv :=
  unfold send_alert, build_message, smtp_session, with_exit, smtp_call, getitem;
  destruct (d !! "url") as [u|] eqn:Hurl; simpl;
  [ destruct (d !! "timestamp") as [t|] eqn:Htime; simpl;
    [ destruct (d !! "error") as [err|] eqn:Herror; simpl;
      [ destruct (srv Connect) eqn:Hconnect; simpl;
        [ | destruct (srv StartTLS) eqn:Hstarttls, (srv Login) eqn:Hlogin,
              (srv SendMessage) eqn:Hsend, (srv Quit) eqn:Hquit; simpl ]
      | ]
    | ]
  | ].

Lemma first_missing_None (d : dict) :
  first_missing d = None <->
  is_Some (d !! "url") /\ is_Some (d !! "timestamp") /\ is_Some (d !! "error").
Proof.
  unfold first_missing, required_keys, is_missing.
  rewrite !filter_cons, filter_nil.
  destruct (d !! "url"), (d !! "timestamp"), (d !! "error");
    repeat case_decide; simpl; try done;
    split; try done; intros (H1 & H2 & H3);
    by (apply is_Some_None in H1 || apply is_Some_None in H2
        || apply is_Some_None in H3).
Qed.

Lemma relay_accepts_dec (srv : relay) :
  relay_accepts srv \/ exists s e, srv s = Some e.
Proof.
  destruct (srv Connect) eqn:E1; [eauto|].
  destruct (srv StartTLS) eqn:E2; [eauto|].
  destruct (srv Login) eqn:E3; [eauto|].
  destruct (srv SendMessage) eqn:E4; [eauto|].
  destruct (srv Quit) eqn:E5; [eauto|].
  left. by intros [].
Qed.

(** X10: [send_alert] returns [True] exactly when the result has the keys
    [url], [timestamp] and [error] and every step of the SMTP session
    succeeds. *)
Theorem send_alert_true_iff fr cfg (check_result : dict) srv :
  result_of (send_alert fr cfg check_result srv) = Ok true <->
  first_missing check_result = None /\ relay_accepts srv.
Proof.
  split.
  - intros Hok. split.
    + apply first_missing_None. revert Hok.
      send_alert_paths check_result srv; try done; intros _; eauto.
    + destruct (relay_accepts_dec srv) as [|(s & e & Hs)]; [done|].
      rewrite (send_alert_failed _ _ _ _ _ _ Hs) in Hok. done.
  - intros [Hkeys Hsrv]. apply first_missing_None in Hkeys.
    destruct Hkeys as ([u Hu] & [t Ht] & [err Herr]).
    unfold send_alert, build_message, getitem. rewrite Hu, Ht, Herr. simpl.
    match goal with |- context [smtp_session srv ?m] =>
      pose proof (smtp_session_ok srv m Hsrv) as Hok;
      destruct (smtp_session srv m) as [tr out]
    end.
    simpl in Hok. by subst out.
Qed.

(** X11: when the result lacks a required key, [send_alert] returns
    [False] after logging the [KeyError] of the first missing key; the
    relay is not contacted and nothing is sent. *)
Theorem send_alert_missing_key fr cfg (check_result : dict) srv key :
  first_missing check_result = Some key ->
  send_alert fr cfg check_result srv
  = ([SendAlert check_result;
      Log ERROR ("Failed to send alert: '" +:+ key +:+ "'")],
     Ok false).
Proof.
  unfold first_missing, required_keys, is_missing.
  rewrite !filter_cons, filter_nil.
  unfold send_alert, build_message, getitem.
  destruct (check_result !! "url"); simpl.
  - destruct (check_result !! "timestamp"); simpl.
    + destruct (check_result !! "error"); simpl.
      * repeat case_decide; done.
      * repeat case_decide; try done. by intros [= <-].
    + repeat case_decide; try done; by intros [= <-].
  - repeat case_decide; try done; by intros [= <-].
Qed.

Lemma send_alert_missing_key_witness :
  send_alert decimal_repr CONFIG no_timestamp relay_ok
  = ([SendAlert no_timestamp;
      Log ERROR "Failed to send alert: 'timestamp'"],
     Ok false).
Proof.
  apply (send_alert_missing_key decimal_repr CONFIG no_timestamp relay_ok
           "timestamp").
  by vm_compute.
Defined.

(** X12: [send_alert] hands at most one message to the relay, and only
    after the connection, [starttls] and [login] have succeeded. *)
Theorem send_alert_sends_after_login fr cfg (check_result : dict) srv :
  mails_of (trace (send_alert fr cfg check_result srv))
  = match result_of (build_message fr cfg check_result),
          srv Connect, srv StartTLS, srv Login with
    | Ok msg, None, None, None => [msg]
    | _, _, _, _ => []
    end.
Proof.
  send_alert_paths check_result srv; reflexivity.
Qed.

(** X13: [send_alert] writes exactly one log line: the INFO line "Alert
    sent for <url>" when it returns [True], an ERROR line "Failed to send
    alert: <reason>" when it returns [False]. *)
Theorem send_alert_one_log_line fr cfg (check_result : dict) srv :
  exists delivered line,
    result_of (send_alert fr cfg check_result srv) = Ok delivered
    /\ logs_of (trace (send_alert fr cfg check_result srv))
       = [(if delivered then INFO else ERROR, line)]
    /\ if delivered
       then exists u, check_result !! "url" = Some u
                      /\ line = "Alert sent for " +:+ py_str fr u
       else exists reason, line = "Failed to send alert: " +:+ reason.
Proof.
  send_alert_paths check_result srv;
    first [ by exists true; eexists; repeat split; eexists
          | by exists false; eexists; repeat split; eexists ].
Qed.

Lemma send_alert_counts fr cfg (check_result : dict) srv :
  length (logs_of (trace (send_alert fr cfg check_result srv))) = 1%nat
  /\ (length (mails_of (trace (send_alert fr cfg check_result srv))) <= 1)%nat.
Proof.
  send_alert_paths check_result srv; simpl; split; lia.
Qed.

(** X14: for a result of [check_url] whose elapsed time is not negative
    the message is always built: its subject names the URL of the target,
    its recipients are those of the configuration joined by ", ", and its
    body carries the URL, the time of the check and the recorded error. *)
Theorem alert_for_check_url fr cfg uc ts p :
  elapsed_nonneg p ->
  let res := check_url fr cfg uc ts p in
  exists err msg,
    res !! "error" = Some err
    /\ result_of (build_message fr cfg res) = Ok msg
    /\ msg_subject msg = subject_prefix (smtp cfg) +:+ " Failure: " +:+ url uc
    /\ msg_from msg = from (smtp cfg)
    /\ msg_to msg = String.concat ", " (to (smtp cfg))
    /\ msg_body msg = alert_body fr (PyStr (url uc)) (PyStr ts) err res.
Proof.
  intros _ res.
  assert (Hu : res !! "url" = Some (PyStr (url uc))
               /\ res !! "timestamp" = Some (PyStr ts)).
  { subst res. destruct p as [rt r|e]; [|done]. check_url_paths rt r uc s; done. }
  destruct Hu as [Hu Ht].
  destruct (check_url_bound fr cfg uc ts p "error") as [err Herr]; [done|].
  fold res in Herr. exists err. eexists. split; [done|].
  unfold build_message, getitem. rewrite Hu, Ht, Herr. simpl.
  repeat split.
Qed.

Lemma alert_for_check_url_witness :
  let res := check_url decimal_repr CONFIG example_com noon
               (Responded (50126 # 1000) not_found) in
  exists err msg,
    res !! "error" = Some err
    /\ result_of (build_message decimal_repr CONFIG res) = Ok msg
    /\ msg_subject msg
       = subject_prefix (smtp CONFIG) +:+ " Failure: " +:+ url example_com
    /\ msg_from msg = from (smtp CONFIG)
    /\ msg_to msg = String.concat ", " (to (smtp CONFIG))
    /\ msg_body msg
       = alert_body decimal_repr (PyStr (url example_com)) (PyStr noon) err res.
Proof.
  apply (alert_for_check_url decimal_repr CONFIG example_com noon
           (Responded (50126 # 1000) not_found)).
  simpl. discriminate.
Defined.

(** ** More on [run_checks] *)

(** The trace of one iteration. *)
Lemma run_check_trace fr cfg uc o :
  let res := check_url fr cfg uc (obs_timestamp o) (obs_probe o) in
  exists rtv errv,
    res !! "response_time_ms" = Some rtv
    /\ res !! "error" = Some errv
    /\ trace (run_check fr cfg uc o)
       = HttpGet (url uc) ::
         if succeeded res
         then [Log INFO ("✓ " +:+ url uc +:+ " - " +:+ py_str fr rtv +:+ "ms")]
         else Log ERROR ("✗ " +:+ url uc +:+ " - " +:+ py_str fr errv)
              :: trace (send_alert fr cfg res (obs_relay o)).
Proof.
  intros res.
  destruct (check_url_success_bool fr cfg uc (obs_timestamp o) (obs_probe o))
    as [b Hb].
  destruct (check_url_bound fr cfg uc (obs_timestamp o) (obs_probe o)
              "response_time_ms") as [rtv Hrt]; [done|].
  destruct (check_url_bound fr cfg uc (obs_timestamp o) (obs_probe o)
              "error") as [errv Herr]; [done|].
  destruct (send_alert_returns fr cfg res (obs_relay o)) as [delivered Hd].
  fold res in Hb, Hrt, Herr. exists rtv, errv. split; [done|]. split; [done|].
  unfold succeeded. rewrite Hb.
  unfold run_check, check_url_io, getitem. simpl. fold res.
  rewrite Hb. simpl. destruct b; simpl.
  - rewrite Hrt. by simpl.
  - rewrite Herr. simpl.
    destruct (send_alert fr cfg res (obs_relay o)) as [tr out].
    simpl in *. subst out. simpl. by rewrite app_nil_r.
Qed.

(** The number of failed results of a cycle. *)
Lemma run_checks_loop_counts fr cfg env targets :
  let failed := filter (fun r => succeeded r = false)
                  (cycle_results fr cfg env targets) in
  length (logs_of (trace (run_checks_loop fr cfg env targets)))
  = (length targets + length failed)%nat
  /\ (length (mails_of (trace (run_checks_loop fr cfg env targets)))
      <= length failed)%nat.
Proof.
  revert env. induction targets as [|uc rest IH]; intros env; [simpl; lia|].
  destruct (run_check_spec fr cfg uc (env O)) as (Hok & _ & _).
  destruct (run_check_trace fr cfg uc (env O)) as (rtv & errv & _ & _ & Htr).
  destruct (IH (fun i => env (S i))) as (IHlog & IHmail).
  destruct (send_alert_counts fr cfg
              (check_url fr cfg uc (obs_timestamp (env O)) (obs_probe (env O)))
              (obs_relay (env O))) as (Hlog1 & Hmail1).
  cbn [run_checks_loop cycle_results]. cbn zeta in *.
  rewrite trace_bind, Hok, logs_of_app, mails_of_app, !length_app, Htr.
  rewrite filter_cons.
  destruct (succeeded _); case_decide; try done; simpl in *; lia.
Qed.

(** X15: a cycle writes the start line, one line for each target, one more
    line for each failed check (the outcome of its alert), and the
    completion line. *)
Theorem run_checks_log_lines fr cfg env :
  length (logs_of (trace (run_checks fr cfg env)))
  = (2 + length (urls cfg)
     + length (filter (fun r => succeeded r = false)
                 (cycle_results fr cfg env (urls cfg))))%nat
  /\ head (logs_of (trace (run_checks fr cfg env)))
     = Some (INFO, "Starting URL monitoring checks...")
  /\ last (logs_of (trace (run_checks fr cfg env)))
     = Some (INFO, "Completed all checks").
Proof.
  destruct (run_checks_loop_spec fr cfg env (urls cfg)) as (Hok & _ & _).
  destruct (run_checks_loop_counts fr cfg env (urls cfg)) as (Hlog & _).
  unfold run_checks. rewrite !trace_bind. simpl. rewrite Hok.
  rewrite logs_of_app. simpl.
  split; [|split].
  - rewrite length_app. simpl. cbn zeta in Hlog. lia.
  - done.
  - by rewrite app_comm_cons, last_snoc.
Qed.

(** X17: a cycle hands at most one message to the relays for each failed
    check, and none when no check failed. *)
Theorem run_checks_mails_bounded fr cfg env :
  (length (mails_of (trace (run_checks fr cfg env)))
   <= length (filter (fun r => succeeded r = false)
                (cycle_results fr cfg env (urls cfg))))%nat.
Proof.
  destruct (run_checks_loop_spec fr cfg env (urls cfg)) as (Hok & _ & _).
  destruct (run_checks_loop_counts fr cfg env (urls cfg)) as (_ & Hmail).
  unfold run_checks. rewrite !trace_bind. simpl. rewrite Hok.
  rewrite mails_of_app. simpl.
  rewrite app_nil_r. exact Hmail.
Qed.

(** In a cycle without failed check every log line is an INFO line. *)
Lemma run_checks_loop_all_passed fr cfg env targets :
  Forall (fun r => succeeded r = true) (cycle_results fr cfg env targets) ->
  Forall (fun l : level * string => l.1 = INFO)
    (logs_of (trace (run_checks_loop fr cfg env targets))).
Proof.
  revert env. induction targets as [|uc rest IH]; intros env Hall; [constructor|].
  cbn [cycle_results] in Hall. apply Forall_cons in Hall as [Hres Hrest].
  destruct (run_check_spec fr cfg uc (env O)) as (Hok & _ & _).
  destruct (run_check_trace fr cfg uc (env O)) as (rtv & errv & _ & _ & Htr).
  cbn zeta in Htr. rewrite Hres in Htr.
  cbn [run_checks_loop]. rewrite trace_bind, Hok, logs_of_app, Htr.
  apply Forall_app. split; [by repeat constructor|]. by apply IH.
Qed.

(** X16: in a cycle in which every check succeeds, no alert is dispatched,
    no message reaches a relay, and the log holds INFO lines only. *)
Theorem run_checks_all_passed fr cfg env :
  Forall (fun r => succeeded r = true) (cycle_results fr cfg env (urls cfg)) ->
  alerts_of (trace (run_checks fr cfg env)) = []
  /\ mails_of (trace (run_checks fr cfg env)) = []
  /\ Forall (fun l : level * string => l.1 = INFO)
       (logs_of (trace (run_checks fr cfg env))).
Proof.
  intros Hall.
  assert (Hnone : filter (fun r => succeeded r = false)
                    (cycle_results fr cfg env (urls cfg)) = []).
  { induction Hall as [|r rs Hr _ IH]; [done|].
    rewrite filter_cons. case_decide; [congruence | done]. }
  destruct (run_checks_spec fr cfg env) as (_ & _ & Hal).
  destruct (run_checks_loop_spec fr cfg env (urls cfg)) as (Hok & _ & _).
  destruct (run_checks_loop_counts fr cfg env (urls cfg)) as (_ & Hmail).
  cbn zeta in Hmail. rewrite Hnone in Hmail.
  split; [by rewrite Hal|]. split.
  - unfold run_checks. rewrite !trace_bind. simpl. rewrite Hok.
    rewrite mails_of_app. simpl. rewrite app_nil_r.
    destruct (mails_of _); [done | simpl in Hmail; lia].
  - unfold run_checks. rewrite !trace_bind. simpl. rewrite Hok.
    rewrite logs_of_app. simpl.
    apply Forall_cons. split; [done|]. apply Forall_app. split.
    + by apply run_checks_loop_all_passed.
    + by repeat constructor.
Qed.

Lemma run_checks_all_passed_witness :
  alerts_of (trace (run_checks decimal_repr CONFIG good_day)) = []
  /\ mails_of (trace (run_checks decimal_repr CONFIG good_day)) = []
  /\ Forall (fun l : level * string => l.1 = INFO)
       (logs_of (trace (run_checks decimal_repr CONFIG good_day))).
Proof.
  apply (run_checks_all_passed decimal_repr CONFIG good_day).
  repeat constructor.
Defined.

(** X18: the log line of a check whose elapsed time is not negative: a
    successful check logs its URL with the rounded response time; a failed
    check logs its URL with the error, which is the message of the first
    failing sub-check or that of the exception. *)
Theorem run_check_log_line fr cfg uc o :
  elapsed_nonneg (obs_probe o) ->
  head (logs_of (trace (run_check fr cfg uc o)))
  = Some match obs_probe o with
         | Responded rt r =>
             match first_failure cfg uc rt r with
             | None =>
                 (INFO, "✓ " +:+ url uc +:+ " - " +:+ fr (round2 rt) +:+ "ms")
             | Some c =>
                 (ERROR, "✗ " +:+ url uc +:+ " - " +:+ failure_message fr rt r c)
             end
         | Raised e => (ERROR, "✗ " +:+ url uc +:+ " - " +:+ e)
         end.
Proof.
  intros _.
  destruct (run_check_trace fr cfg uc o) as (rtv & errv & Hrt & Herr & Htr).
  cbn zeta in *. rewrite Htr. unfold succeeded.
  destruct (obs_probe o) as [rt r|e].
  - destruct (check_url_first_failure fr cfg uc (obs_timestamp o) rt r)
      as (He & Hs & _).
    destruct (check_url_response_fields fr cfg uc (obs_timestamp o) rt r)
      as (_ & Hrt').
    rewrite Hs. rewrite He in Herr. rewrite Hrt' in Hrt.
    injection Herr as <-. injection Hrt as <-.
    by destruct (first_failure cfg uc rt r).
  - rewrite check_url_raised in *. simpl in *.
    injection Herr as <-. done.
Qed.

Lemma run_check_log_line_witness :
  head (logs_of (trace (run_check decimal_repr CONFIG example_com (good_day O))))
  = Some (INFO, "✓ https://www.example.com - 50.13ms").
Proof.
  apply (run_check_log_line decimal_repr CONFIG example_com (good_day O)).
  simpl. discriminate.
Defined.

(** An accepting relay receives the one message of an alert. *)
Lemma send_alert_mails_accepting fr cfg (check_result : dict) srv :
  first_missing check_result = None ->
  relay_accepts srv ->
  length (mails_of (trace (send_alert fr cfg check_result srv))) = 1%nat.
Proof.
  intros Hkeys Hsrv. apply first_missing_None in Hkeys.
  destruct Hkeys as ([u Hu] & [t Ht] & [err Herr]).
  unfold send_alert, build_message, smtp_session, with_exit, smtp_call, getitem.
  by rewrite Hu, Ht, Herr, !Hsrv.
Qed.

Lemma run_checks_loop_mails_accepting fr cfg env targets :
  (forall i, relay_accepts (obs_relay (env i))) ->
  length (mails_of (trace (run_checks_loop fr cfg env targets)))
  = length (filter (fun r => succeeded r = false)
              (cycle_results fr cfg env targets)).
Proof.
  revert env. induction targets as [|uc rest IH]; intros env Hsrv; [done|].
  destruct (run_check_spec fr cfg uc (env O)) as (Hok & _ & _).
  destruct (run_check_trace fr cfg uc (env O)) as (rtv & errv & _ & _ & Htr).
  pose proof (send_alert_mails_accepting fr cfg
    (check_url fr cfg uc (obs_timestamp (env O)) (obs_probe (env O)))
    (obs_relay (env O))) as Hone.
  cbn [run_checks_loop cycle_results]. cbn zeta in *.
  rewrite trace_bind, Hok, mails_of_app, length_app, Htr, filter_cons.
  rewrite (IH (fun i => env (S i))) by (intros i; apply Hsrv).
  destruct (succeeded _); case_decide; try done; simpl.
  rewrite Hone; [done | | apply Hsrv].
  apply first_missing_None.
  repeat split; by apply check_url_bound.
Qed.

(** X19: when the relay accepts every step, each failed check of the cycle
    puts exactly one message on the relay. *)
Theorem run_checks_mails_when_relay_works fr cfg env :
  (forall i, relay_accepts (obs_relay (env i))) ->
  length (mails_of (trace (run_checks fr cfg env)))
  = length (filter (fun r => succeeded r = false)
              (cycle_results fr cfg env (urls cfg))).
Proof.
  intros Hsrv.
  destruct (run_checks_loop_spec fr cfg env (urls cfg)) as (Hok & _ & _).
  unfold run_checks. rewrite !trace_bind. simpl. rewrite Hok.
  rewrite mails_of_app. simpl. rewrite app_nil_r.
  by apply run_checks_loop_mails_accepting.
Qed.

Lemma run_checks_mails_when_relay_works_witness :
  length (mails_of (trace (run_checks decimal_repr CONFIG outage)))
  = length (filter (fun r => succeeded r = false)
              (cycle_results decimal_repr CONFIG outage (urls CONFIG))).
Proof.
  apply (run_checks_mails_when_relay_works decimal_repr CONFIG outage).
  intros i s. reflexivity.
Defined.

(** X20: a dictionary that has [url], [timestamp] and [error] but lacks a
    diagnostic key still gets its message, in which each missing
    diagnostic reads "N/A"; only a missing required key stops the alert. *)
Theorem alert_tolerates_missing_diagnostics fr cfg (check_result : dict) key :
  first_missing check_result = None ->
  check_result !! key = None ->
  diagnostic fr check_result key = "N/A"
  /\ exists u t e msg,
       check_result !! "url" = Some u
       /\ check_result !! "timestamp" = Some t
       /\ check_result !! "error" = Some e
       /\ result_of (build_message fr cfg check_result) = Ok msg
       /\ msg_body msg = alert_body fr u t e check_result.
Proof.
  intros Hkeys Hkey. split; [by apply diagnostic_missing|].
  apply first_missing_None in Hkeys.
  destruct Hkeys as ([u Hu] & [t Ht] & [e He]).
  exists u, t, e.
  unfold build_message, getitem. rewrite Hu, Ht, He. simpl.
  eexists. split; [done|]. split; [done|]. split; [done|].
  split; reflexivity.
Qed.

Lemma alert_tolerates_missing_diagnostics_witness :
  diagnostic decimal_repr bare_result "status_code" = "N/A"
  /\ exists u t e msg,
       bare_result !! "url" = Some u
       /\ bare_result !! "timestamp" = Some t
       /\ bare_result !! "error" = Some e
       /\ result_of (build_message decimal_repr CONFIG bare_result) = Ok msg
       /\ msg_body msg = alert_body decimal_repr u t e bare_result.
Proof.
  apply (alert_tolerates_missing_diagnostics decimal_repr CONFIG bare_result
           "status_code"); by vm_compute.
Defined.
